(** * FastAPI-Auto-Docs: the three route handlers of [main.py]

    [main.py] declares one schema ([Item]) and registers three handlers
    on a FastAPI application.  The handlers are embedded as computations
    over the state of the serving process; the values they build are
    Python values, and the mappings they return are string-keyed
    dictionaries. *)

From Stdlib Require Import ZArith String Ascii Floats.
From stdpp Require Import base option strings gmap.

#[local] Set Warnings "-register-all".
#[local] Open Scope Z_scope.

(** ** Python values and computations *)

Module Python.

(** The values that occur in a request body and in a returned mapping:
    [None], [bool], [int] (unbounded), [float] (binary64), [str],
    [list] and [dict] with string keys. *)
Inductive value : Type :=
  | VNone
  | VBool (b : bool)
  | VInt (z : Z)
  | VFloat (f : float)
  | VStr (s : string)
  | VList (l : list value)
  | VDict (d : gmap string value).

Abbreviation dict := (gmap string value).

(** A dict display [{k1: v1, ..., kn: vn}] evaluates its items from left
    to right and stores each one; a repeated key keeps the last value. *)
Definition dict_display (items : list (string * value)) : dict :=
  foldl (λ d kv, <[kv.1 := kv.2]> d) ∅ items.

(** A value of type [T] or [None], as Python sees it. *)
Definition of_optional {A : Type} (inj : A → value) (o : option A) : value :=
  match o with
  | Some a => inj a
  | None => VNone
  end.

(** Some key of the mapping holds the value [v]. *)
Definition reflects (d : dict) (v : value) : Prop :=
  ∃ k : string, d !! k = Some v.

(** A computation of the serving process: a function of the process
    state that gives a result and the state afterwards. *)
Definition Py (Σ A : Type) : Type := Σ → A * Σ.

#[export] Instance Py_ret {Σ : Type} : MRet (Py Σ) :=
  λ A a σ, (a, σ).

#[export] Instance Py_bind {Σ : Type} : MBind (Py Σ) :=
  λ A B k m σ, let '(a, σ') := m σ in k a σ'.

Definition result {Σ A : Type} (m : Py Σ A) (σ : Σ) : A := (m σ).1.

Definition state_after {Σ A : Type} (m : Py Σ A) (σ : Σ) : Σ := (m σ).2.

End Python.

Import Python.

(** ** main.py *)

Module Main.

(** [class Item(BaseModel)] with [name: str], [price: float] and
    [is_offer: bool = None]: the last attribute holds a [bool] or [None]. *)
Record Item : Type := mkItem {
  name : string;
  price : float;
  is_offer : option bool
}.

(** The default that the class body gives to [is_offer] (line 17). *)
Definition Item_is_offer_default : option bool := None.

(** The default of the parameter [q] of [read_item] (line 30). *)
Definition read_item_q_default : option string := None.

(** [@app.get("/")] *)
Definition read_root {Σ : Type} : Py Σ dict :=
  mret (dict_display [("Hello", VStr "World")]).

(** [@app.get("/items/{item_id}")], with [item_id: int] and
    [q: str = None]. *)
Definition read_item {Σ : Type} (item_id : Z) (q : option string) : Py Σ dict :=
  mret (dict_display [("item_id", VInt item_id); ("q", of_optional VStr q)]).

(** [@app.put("/items/{item_id}")], with [item_id: int] and [item: Item]. *)
Definition update_item {Σ : Type} (item_id : Z) (item : Item) : Py Σ dict :=
  mret (dict_display [("item_name", VStr (name item));
                      ("item_id", VInt item_id);
                      ("updated_price", VFloat (price item))]).

(** The typed inputs of the two handlers with parameters, as the values
    that a returned mapping can hold. *)
Definition read_item_inputs (item_id : Z) (q : option string) : list value :=
  [VInt item_id; of_optional VStr q].

Definition update_item_inputs (item_id : Z) (item : Item) : list value :=
  [VInt item_id; VStr (name item); VFloat (price item);
   of_optional VBool (is_offer item)].

End Main.

Import Main.

(** ** The framework around the handlers *)

Module FastAPI.

Inductive method : Type :=
  | GET
  | PUT
  | OtherMethod (verb : string).

(** A request after HTTP parsing: the query string as a map of its
    parameters, the body as the decoded JSON value when there is one. *)
Record request : Type := mkRequest {
  meth : method;
  path : string;
  query : gmap string string;
  body : option value
}.

Inductive response : Type :=
  | Success (content : dict)
  | ValidationFailure
  | NoRoute.

(** Modelled from the spec: the framework's coercion of raw request data
    to the declared types is not code of [main.py]; it is taken as an
    interface, one function per declared type.  [None] is a rejection. *)
Class Validators : Type := mkValidators {
  int_of_path : string → option Z;
  str_of_json : value → option string;
  float_of_json : value → option float;
  is_offer_of_json : value → option (option bool)
}.

(** [strip_prefix p s] is the rest of [s] after its prefix [p]. *)
Fixpoint strip_prefix (p s : string) : option string :=
  match p, s with
  | EmptyString, _ => Some s
  | String a p', String b s' =>
      if Ascii.eqb a b then strip_prefix p' s' else None
  | String _ _, EmptyString => None
  end.

Fixpoint no_slash (s : string) : bool :=
  match s with
  | EmptyString => true
  | String c s' => negb (Ascii.eqb c "/") && no_slash s'
  end.

(** A path parameter is one segment: not empty, and without a slash. *)
Definition is_segment (s : string) : bool :=
  negb (String.eqb s "") && no_slash s.

Inductive endpoint : Type :=
  | Root
  | Items (segment : string).

(** The two path templates that the decorators of [main.py] register:
    ["/"] and ["/items/{item_id}"]. *)
Definition route (p : string) : option endpoint :=
  if String.eqb p "/" then Some Root
  else match strip_prefix "/items/" p with
       | Some seg => if is_segment seg then Some (Items seg) else None
       | None => None
       end.

(** Modelled from the spec: construction of an [Item] from a decoded
    body is the schema library's, not code of [main.py].  The attributes,
    their types and the default of [is_offer] are those of the class
    body: [name] and [price] have no default and must be present, an
    absent [is_offer] takes [Item_is_offer_default]. *)
Definition Item_validate `{Validators} (v : value) : option Item :=
  match v with
  | VDict fields =>
      n ← fields !! "name" ≫= str_of_json;
      p ← fields !! "price" ≫= float_of_json;
      o ← match fields !! "is_offer" with
          | Some w => is_offer_of_json w
          | None => Some Item_is_offer_default
          end;
      Some {| name := n; price := p; is_offer := o |}
  | _ => None
  end.

(** The query parameter [q: str = None]: every string is a [str]; an
    absent parameter takes the default of the signature. *)
Definition bind_q (qs : gmap string string) : option string :=
  match qs !! "q" with
  | Some s => Some s
  | None => read_item_q_default
  end.

(** Modelled from the spec: the dispatcher is the framework's, not code
    of [main.py].  Following the data flow of the spec, a request is
    matched with a registered route, its path, query and body are
    checked against the types the handler declares, and the handler is
    called; its mapping is the successful response. *)
Definition app `{Validators} {Σ : Type} (r : request) : Py Σ response :=
  match route (path r), meth r with
  | Some Root, GET =>
      d ← read_root; mret (Success d)
  | Some (Items seg), GET =>
      match int_of_path seg with
      | Some item_id =>
          d ← read_item item_id (bind_q (query r)); mret (Success d)
      | None => mret ValidationFailure
      end
  | Some (Items seg), PUT =>
      match int_of_path seg, body r ≫= Item_validate with
      | Some item_id, Some item =>
          d ← update_item item_id item; mret (Success d)
      | _, _ => mret ValidationFailure
      end
  | _, _ => mret NoRoute
  end.

End FastAPI.

Import FastAPI.

(** ** Concrete inputs *)

Module Samples.

Definition pen : Item := {| name := "pen"; price := 1.5; is_offer := None |}.

Definition pen_on_offer : Item :=
  {| name := "pen"; price := 1.5; is_offer := Some true |}.

Definition digit_of (c : ascii) : option Z :=
  let n := Z.of_N (N_of_ascii c) in
  if (48 <=? n) && (n <=? 57) then Some (n - 48) else None.

Fixpoint digits (acc : Z) (s : string) : option Z :=
  match s with
  | EmptyString => Some acc
  | String c s' => d ← digit_of c; digits (10 * acc + d) s'
  end.

(** A decimal numeral with an optional minus sign. *)
Definition decimal_int (s : string) : option Z :=
  match s with
  | EmptyString => None
  | String c s' =>
      if Ascii.eqb c "-"
      then (if String.eqb s' "" then None else Z.opp <$> digits 0 s')
      else digits 0 s
  end.

(** The validators that accept a value of the declared type as it is
    and reject every other value. *)
Definition strict : Validators := {|
  int_of_path := decimal_int;
  str_of_json v := match v with VStr s => Some s | _ => None end;
  float_of_json v := match v with VFloat f => Some f | _ => None end;
  is_offer_of_json v := match v with VBool b => Some (Some b) | _ => None end
|}.

(** The decoded body [{"name": "pen", "price": 1.5}]. *)
Definition pen_fields : dict :=
  dict_display [("name", VStr "pen"); ("price", VFloat 1.5)].

(** The decoded body [{"price": 1.5}], which has no [name]. *)
Definition price_only : dict :=
  dict_display [("price", VFloat 1.5)].

Definition get_item_42 : request :=
  {| meth := GET; path := "/items/42"; query := ∅; body := None |}.

Definition get_item_42_foo : request :=
  {| meth := GET; path := "/items/42"; query := {[ "q" := "foo" ]};
     body := None |}.

Definition put_item_7 (fields : dict) : request :=
  {| meth := PUT; path := "/items/7"; query := ∅;
     body := Some (VDict fields) |}.

End Samples.

Import Samples.

(** ** Properties of the handlers *)

(** Running a handler: its body is a [return] of a dict display. *)
Ltac run_handler :=
  unfold result, state_after, read_root, read_item, update_item in *;
  unfold mret, Py_ret, dict_display in *; cbn [foldl fst snd] in *.

(** A lookup in a dict display is decided key by key. *)
Ltac lookup_display H :=
  repeat (rewrite lookup_insert in H; case_decide; [discriminate H|]);
  rewrite lookup_empty in H; discriminate H.

(** Two mappings built by insertions are equal when they agree at
    every key. *)
Ltac same_lookups :=
  let k := fresh "k" in
  apply map_eq; intros k;
  rewrite ?lookup_insert, ?lookup_singleton, ?lookup_empty;
  repeat case_decide; congruence.

Section HandlerProperties.
Context {Σ : Type}.

(** C5: [read_root] returns exactly the mapping [{"Hello": "World"}],
    at every invocation, and the mapping has no other key. *)
Theorem read_root_hello_world (σ : Σ) :
  result read_root σ = {[ "Hello" := VStr "World" ]}
  ∧ dom (result read_root σ) = ({[ "Hello" ]} : gset string)
  ∧ ∀ k : string, k ≠ "Hello" → result read_root σ !! k = None.
Proof.
  split; [reflexivity|]. split.
  - run_handler. set_solver.
  - intros k Hk. run_handler.
    rewrite lookup_insert_ne by congruence. apply lookup_empty.
Qed.

(** The mapping that [update_item] builds, key by key. *)
Lemma update_item_display (σ : Σ) (item_id : Z) (item : Item) :
  result (update_item item_id item) σ =
    <["updated_price" := VFloat (price item)]>
      (<["item_id" := VInt item_id]>
        (<["item_name" := VStr (name item)]> ∅)).
Proof. reflexivity. Qed.

(** The mapping that [read_item] builds, key by key. *)
Lemma read_item_display (σ : Σ) (item_id : Z) (q : option string) :
  result (read_item item_id q) σ =
    <["q" := of_optional VStr q]> (<["item_id" := VInt item_id]> ∅).
Proof. reflexivity. Qed.

(** C1: [update_item] returns the mapping of [item_name], [item_id] and
    [updated_price] to the body's name, the path's id and the body's
    price; for id 7 and the body [{"name": "pen", "price": 1.5}] it is
    [{"item_name": "pen", "item_id": 7, "updated_price": 1.5}]. *)
Theorem update_item_returns (σ : Σ) (item_id : Z) (item : Item) :
  result (update_item item_id item) σ =
    {[ "item_name" := VStr (name item);
       "item_id" := VInt item_id;
       "updated_price" := VFloat (price item) ]}
  ∧ result (update_item 7 pen) σ =
    {[ "item_name" := VStr "pen";
       "item_id" := VInt 7;
       "updated_price" := VFloat 1.5 ]}.
Proof.
  assert (∀ i it, result (update_item i it) σ =
    {[ "item_name" := VStr (name it); "item_id" := VInt i;
       "updated_price" := VFloat (price it) ]}) as general.
  { intros i it. rewrite update_item_display. same_lookups. }
  split; [apply general | apply (general 7 pen)].
Qed.

(** C2: [read_item] returns the mapping of [item_id] and [q] to its two
    arguments; for id 42 and [q = "foo"] it is
    [{"item_id": 42, "q": "foo"}]. *)
Theorem read_item_returns (σ : Σ) (item_id : Z) (q : string) :
  result (read_item item_id (Some q)) σ =
    {[ "item_id" := VInt item_id; "q" := VStr q ]}
  ∧ result (read_item 42 (Some "foo")) σ =
    {[ "item_id" := VInt 42; "q" := VStr "foo" ]}.
Proof.
  assert (∀ i s, result (read_item i (Some s)) σ =
    {[ "item_id" := VInt i; "q" := VStr s ]}) as general.
  { intros i s. rewrite read_item_display. cbn [of_optional]. same_lookups. }
  split; [apply general | apply (general 42 "foo"%string)].
Qed.

(** C9: [update_item] does not depend on the body's [is_offer]: two
    bodies with the same name and price give the same mapping (and the
    same state), and the mapping has no key [is_offer]. *)
Theorem update_item_ignores_is_offer (σ : Σ) (item_id : Z) (item1 item2 : Item) :
  name item1 = name item2 →
  price item1 = price item2 →
  update_item item_id item1 σ = update_item item_id item2 σ
  ∧ result (update_item item_id item1) σ !! "is_offer" = None.
Proof.
  intros Hname Hprice. split.
  - unfold update_item. by rewrite Hname, Hprice.
  - rewrite update_item_display.
    rewrite !lookup_insert_ne by discriminate. apply lookup_empty.
Qed.

(** C6, amended: the mapping of [read_item] reflects both of its inputs;
    the mapping of [update_item] reflects the id, the name and the price
    and has these three keys only, so that no key holds [is_offer]. *)
Theorem handlers_reflect_inputs (σ : Σ) (item_id : Z) (q : option string) (item : Item) :
  Forall (reflects (result (read_item item_id q) σ)) (read_item_inputs item_id q)
  ∧ Forall (reflects (result (update_item item_id item) σ))
           [VInt item_id; VStr (name item); VFloat (price item)]
  ∧ dom (result (update_item item_id item) σ)
      = ({[ "item_name"; "item_id"; "updated_price" ]} : gset string)
  ∧ ¬ reflects (result (update_item item_id item) σ)
               (of_optional VBool (is_offer item)).
Proof.
  split; [|split; [|split]].
  - rewrite read_item_display. repeat constructor.
    + by exists "item_id"%string.
    + by exists "q"%string.
  - rewrite update_item_display. repeat constructor.
    + by exists "item_id"%string.
    + by exists "item_name"%string.
    + by exists "updated_price"%string.
  - rewrite update_item_display. rewrite !dom_insert_L, dom_empty_L.
    set_solver.
  - intros [k Hk]. rewrite update_item_display in Hk.
    destruct (is_offer item); cbn in Hk; lookup_display Hk.
Qed.

End HandlerProperties.

Lemma update_item_ignores_is_offer_witness :
  name pen = name pen_on_offer
  ∧ price pen = price pen_on_offer
  ∧ update_item 7 pen tt = update_item 7 pen_on_offer tt
  ∧ result (update_item 7 pen) tt !! "is_offer" = None.
Proof.
  split; [reflexivity|]. split; [reflexivity|].
  apply (update_item_ignores_is_offer (Σ := unit)); reflexivity.
Defined.

(** C6, as stated, fails: for id 7 and the body
    [{"name": "pen", "price": 1.5, "is_offer": true}] no key of the
    mapping that [update_item] returns holds the body's [is_offer]. *)
Lemma update_item_drops_is_offer :
  ¬ Forall (reflects (result (update_item 7 pen_on_offer) tt))
           (update_item_inputs 7 pen_on_offer).
Proof.
  intros Hall. apply Forall_cons_1 in Hall as [_ Hall].
  apply Forall_cons_1 in Hall as [_ Hall].
  apply Forall_cons_1 in Hall as [_ Hall].
  apply Forall_cons_1 in Hall as [[k Hk] _].
  rewrite update_item_display in Hk. cbn in Hk. lookup_display Hk.
Qed.

(** ** Properties of the framework around the handlers *)

(** Running the dispatcher on a request. *)
Ltac run_app :=
  unfold result, app; cbn [meth path query body].

Lemma strip_prefix_app (p s : string) :
  strip_prefix p (p +:+ s) = Some s.
Proof.
  induction p as [|c p IH]; [reflexivity|].
  change (String c p +:+ s) with (String c (p +:+ s)).
  cbn [strip_prefix]. rewrite Ascii.eqb_refl. exact IH.
Qed.

(** A path made of ["/items/"] and one segment matches the template
    ["/items/{item_id}"], with the segment as the parameter. *)
Lemma route_items (seg : string) :
  is_segment seg = true → route ("/items/" +:+ seg) = Some (Items seg).
Proof.
  intros Hseg. unfold route.
  replace (String.eqb ("/items/" +:+ seg) "/") with false by reflexivity.
  rewrite strip_prefix_app. by rewrite Hseg.
Qed.

Section FrameworkProperties.
Context `{V : Validators} {Σ : Type}.

(** What the dispatcher does with [GET /items/{item_id}]. *)
Lemma app_get_items (σ : Σ) (seg : string) (qs : gmap string string)
    (b : option value) :
  is_segment seg = true →
  result (app {| meth := GET; path := "/items/" +:+ seg;
                 query := qs; body := b |}) σ =
    match int_of_path seg with
    | Some item_id => Success (result (read_item item_id (bind_q qs)) σ)
    | None => ValidationFailure
    end.
Proof.
  intros Hseg. run_app. rewrite (route_items seg Hseg).
  by destruct (int_of_path seg).
Qed.

(** What the dispatcher does with [PUT /items/{item_id}]. *)
Lemma app_put_items (σ : Σ) (seg : string) (qs : gmap string string)
    (b : option value) :
  is_segment seg = true →
  result (app {| meth := PUT; path := "/items/" +:+ seg;
                 query := qs; body := b |}) σ =
    match int_of_path seg, b ≫= Item_validate with
    | Some item_id, Some item => Success (result (update_item item_id item) σ)
    | _, _ => ValidationFailure
    end.
Proof.
  intros Hseg. run_app. rewrite (route_items seg Hseg).
  destruct (int_of_path seg); [|reflexivity].
  by destruct (b ≫= Item_validate).
Qed.

(** C3: a [GET /items/{item_id}] request without the query parameter [q]
    returns [{"item_id": item_id, "q": null}]: [q] takes the default of
    the signature, which is [None]. *)
Theorem read_item_without_q (σ : Σ) (seg : string) (item_id : Z)
    (qs : gmap string string) (b : option value) :
  is_segment seg = true →
  int_of_path seg = Some item_id →
  qs !! "q" = None →
  result (app {| meth := GET; path := "/items/" +:+ seg;
                 query := qs; body := b |}) σ =
    Success {[ "item_id" := VInt item_id; "q" := VNone ]}
  ∧ result (read_item item_id read_item_q_default) σ =
    {[ "item_id" := VInt item_id; "q" := VNone ]}.
Proof.
  intros Hseg Hint Hq.
  assert (result (read_item item_id None) σ =
          {[ "item_id" := VInt item_id; "q" := VNone ]}) as Hnone.
  { rewrite read_item_display. cbn [of_optional]. same_lookups. }
  split; [|exact Hnone].
  rewrite (app_get_items σ seg qs b Hseg), Hint.
  unfold bind_q. rewrite Hq. unfold read_item_q_default.
  by rewrite Hnone.
Qed.

(** C4: when the [item_id] segment of the path is not an integer, both
    [GET /items/{item_id}] and [PUT /items/{item_id}] end in a validation
    failure, and never in a successful response. *)
Theorem non_integer_item_id_rejected (σ : Σ) (seg : string)
    (qs : gmap string string) (b : option value) (m : method) :
  is_segment seg = true →
  int_of_path seg = None →
  m = GET ∨ m = PUT →
  result (app {| meth := m; path := "/items/" +:+ seg;
                 query := qs; body := b |}) σ = ValidationFailure
  ∧ ∀ d : dict,
      result (app {| meth := m; path := "/items/" +:+ seg;
                     query := qs; body := b |}) σ ≠ Success d.
Proof.
  intros Hseg Hint Hm.
  assert (result (app {| meth := m; path := "/items/" +:+ seg;
                         query := qs; body := b |}) σ = ValidationFailure)
    as Hfail.
  { destruct Hm as [-> | ->].
    - by rewrite (app_get_items σ seg qs b Hseg), Hint.
    - by rewrite (app_put_items σ seg qs b Hseg), Hint. }
  split; [exact Hfail|]. intros d. rewrite Hfail. discriminate.
Qed.

(** A body without [name], or without [price], is not an [Item]. *)
Lemma Item_validate_missing (fields : dict) :
  fields !! "name" = None ∨ fields !! "price" = None →
  Item_validate (VDict fields) = None.
Proof.
  intros [Hmiss | Hmiss]; cbn [Item_validate]; rewrite Hmiss; [reflexivity|].
  by destruct (fields !! "name" ≫= str_of_json).
Qed.

(** A body with a valid [name] and a valid [price] and without [is_offer]
    is an [Item], whose [is_offer] is the default of the class. *)
Lemma Item_validate_without_is_offer (fields : dict) (n : string) (p : float) :
  fields !! "name" ≫= str_of_json = Some n →
  fields !! "price" ≫= float_of_json = Some p →
  fields !! "is_offer" = None →
  Item_validate (VDict fields) =
    Some {| name := n; price := p; is_offer := Item_is_offer_default |}.
Proof.
  intros Hname Hprice Hoffer. cbn [Item_validate].
  by rewrite Hname, Hprice, Hoffer.
Qed.

(** C7: the body of [PUT /items/{item_id}] must have [name] and [price]:
    without either the request ends in a validation failure; a body with
    both and without [is_offer] is accepted and the handler answers. *)
Theorem item_body_requires_name_and_price (σ : Σ) (seg : string) (item_id : Z)
    (qs : gmap string string) (fields : dict) :
  is_segment seg = true →
  int_of_path seg = Some item_id →
  (fields !! "name" = None ∨ fields !! "price" = None →
   Item_validate (VDict fields) = None
   ∧ result (app {| meth := PUT; path := "/items/" +:+ seg;
                    query := qs; body := Some (VDict fields) |}) σ
     = ValidationFailure)
  ∧ (∀ (n : string) (p : float),
       fields !! "name" ≫= str_of_json = Some n →
       fields !! "price" ≫= float_of_json = Some p →
       fields !! "is_offer" = None →
       is_Some (Item_validate (VDict fields))
       ∧ result (app {| meth := PUT; path := "/items/" +:+ seg;
                        query := qs; body := Some (VDict fields) |}) σ
         = Success {[ "item_name" := VStr n;
                      "item_id" := VInt item_id;
                      "updated_price" := VFloat p ]}).
Proof.
  intros Hseg Hint. split.
  - intros Hmiss. pose proof (Item_validate_missing fields Hmiss) as Hnone.
    split; [exact Hnone|].
    rewrite (app_put_items σ seg qs _ Hseg), Hint.
    cbn [mbind option_bind]. by rewrite Hnone.
  - intros n p Hname Hprice Hoffer.
    pose proof (Item_validate_without_is_offer fields n p Hname Hprice Hoffer)
      as Hitem.
    split; [by rewrite Hitem|].
    rewrite (app_put_items σ seg qs _ Hseg), Hint.
    cbn [mbind option_bind]. rewrite Hitem.
    apply (f_equal Success). rewrite update_item_display.
    cbn [name price]. same_lookups.
Qed.

(** C10: an [Item] made from a body without [is_offer] has [is_offer]
    equal to [None], which is not [False]; such an [Item] is made as soon
    as [name] and [price] are valid. *)
Theorem omitted_is_offer_is_none (fields : dict) :
  fields !! "is_offer" = None →
  (∀ item : Item,
     Item_validate (VDict fields) = Some item →
     is_offer item = None
     ∧ is_offer item ≠ Some false
     ∧ of_optional VBool (is_offer item) = VNone)
  ∧ (∀ (n : string) (p : float),
       fields !! "name" ≫= str_of_json = Some n →
       fields !! "price" ≫= float_of_json = Some p →
       Item_validate (VDict fields) =
         Some {| name := n; price := p; is_offer := None |}).
Proof.
  intros Hoffer. split.
  - intros item Hitem. cbn [Item_validate] in Hitem. rewrite Hoffer in Hitem.
    destruct (fields !! "name" ≫= str_of_json) as [n|]; [|discriminate Hitem].
    destruct (fields !! "price" ≫= float_of_json) as [p|]; [|discriminate Hitem].
    cbn in Hitem. injection Hitem as <-. cbn [is_offer of_optional].
    unfold Item_is_offer_default. by repeat split.
  - intros n p Hname Hprice.
    by rewrite (Item_validate_without_is_offer fields n p Hname Hprice Hoffer).
Qed.

End FrameworkProperties.

(** ** The requests of the specification, under the strict validators *)

Example get_root_strict :
  @app strict unit {| meth := GET; path := "/"; query := ∅; body := None |} tt
  = (Success {[ "Hello" := VStr "World" ]}, tt).
Proof. reflexivity. Qed.

Example get_item_42_foo_strict :
  result (@app strict unit get_item_42_foo) tt
  = Success {[ "item_id" := VInt 42; "q" := VStr "foo" ]}.
Proof. unfold result. vm_compute. reflexivity. Qed.

Example put_item_7_pen_strict :
  result (@app strict unit (put_item_7 pen_fields)) tt
  = Success {[ "item_name" := VStr "pen"; "item_id" := VInt 7;
               "updated_price" := VFloat 1.5 ]}.
Proof. unfold result. vm_compute. reflexivity. Qed.

Example unknown_path_strict :
  result (@app strict unit
            {| meth := GET; path := "/items/4/2"; query := ∅; body := None |}) tt
  = NoRoute.
Proof. reflexivity. Qed.

Lemma read_item_without_q_witness :
  is_segment "42" = true
  ∧ @int_of_path strict "42" = Some 42
  ∧ (∅ : gmap string string) !! "q" = None
  ∧ result (@app strict unit get_item_42) tt
    = Success {[ "item_id" := VInt 42; "q" := VNone ]}
  ∧ result (read_item 42 read_item_q_default) tt
    = {[ "item_id" := VInt 42; "q" := VNone ]}.
Proof.
  do 3 (split; [reflexivity|]).
  apply (@read_item_without_q strict unit tt "42" 42 ∅ None); reflexivity.
Defined.

Lemma non_integer_item_id_rejected_witness :
  is_segment "abc" = true
  ∧ @int_of_path strict "abc" = None
  ∧ result (@app strict unit
              {| meth := GET; path := "/items/abc"; query := ∅;
                 body := None |}) tt = ValidationFailure
  ∧ result (@app strict unit
              {| meth := PUT; path := "/items/abc"; query := ∅;
                 body := Some (VDict pen_fields) |}) tt = ValidationFailure.
Proof.
  do 2 (split; [reflexivity|]). split.
  - apply (@non_integer_item_id_rejected strict unit tt "abc" ∅ None GET);
      [reflexivity | reflexivity | left; reflexivity].
  - apply (@non_integer_item_id_rejected strict unit tt "abc" ∅
             (Some (VDict pen_fields)) PUT);
      [reflexivity | reflexivity | right; reflexivity].
Defined.

Lemma item_body_requires_name_and_price_witness :
  is_segment "7" = true
  ∧ @int_of_path strict "7" = Some 7
  ∧ price_only !! "name" = None
  ∧ result (@app strict unit (put_item_7 price_only)) tt = ValidationFailure
  ∧ pen_fields !! "is_offer" = None
  ∧ result (@app strict unit (put_item_7 pen_fields)) tt
    = Success {[ "item_name" := VStr "pen"; "item_id" := VInt 7;
                 "updated_price" := VFloat 1.5 ]}.
Proof.
  do 3 (split; [reflexivity|]). split; [|split; [reflexivity|]].
  - apply (@item_body_requires_name_and_price strict unit tt "7" 7 ∅ price_only);
      [reflexivity | reflexivity | left; reflexivity].
  - apply (@item_body_requires_name_and_price strict unit tt "7" 7 ∅ pen_fields);
      reflexivity.
Defined.

Lemma omitted_is_offer_is_none_witness :
  pen_fields !! "is_offer" = None
  ∧ @Item_validate strict (VDict pen_fields) = Some pen
  ∧ is_offer pen = None.
Proof.
  split; [reflexivity|].
  pose proof (@omitted_is_offer_is_none strict pen_fields eq_refl)
    as [Hnone Hitem].
  pose proof (Hitem "pen"%string 1.5%float eq_refl eq_refl) as Hpen.
  split; [exact Hpen|]. exact (proj1 (Hnone pen Hpen)).
Defined.

(** ** What a returned mapping tells about the inputs *)

Section HandlerEchoes.
Context {Σ : Type}.

Lemma of_optional_VStr_inj (q q' : option string) :
  of_optional VStr q = of_optional VStr q' → q = q'.
Proof.
  destruct q as [s|], q' as [s'|]; cbn [of_optional]; intros Heq;
    [by injection Heq as -> | discriminate Heq | discriminate Heq | reflexivity].
Qed.

(** The entries of the mapping of [read_item]. *)
Lemma read_item_entries (σ : Σ) (item_id : Z) (q : option string) :
  result (read_item item_id q) σ !! "item_id" = Some (VInt item_id)
  ∧ result (read_item item_id q) σ !! "q" = Some (of_optional VStr q).
Proof.
  rewrite read_item_display. split.
  - rewrite lookup_insert_ne by discriminate. apply lookup_insert_eq.
  - apply lookup_insert_eq.
Qed.

(** The entries of the mapping of [update_item]. *)
Lemma update_item_entries (σ : Σ) (item_id : Z) (item : Item) :
  result (update_item item_id item) σ !! "item_name" = Some (VStr (name item))
  ∧ result (update_item item_id item) σ !! "item_id" = Some (VInt item_id)
  ∧ result (update_item item_id item) σ !! "updated_price"
    = Some (VFloat (price item)).
Proof.
  rewrite update_item_display. split; [|split].
  - rewrite !lookup_insert_ne by discriminate. apply lookup_insert_eq.
  - rewrite lookup_insert_ne by discriminate. apply lookup_insert_eq.
  - apply lookup_insert_eq.
Qed.

(** X1: the mapping of [read_item] loses nothing: two invocations return
    the same mapping exactly when they have the same [item_id] and the
    same [q].  The handler has no test on [q], so an absent [q] is told
    apart from every string, the empty one included. *)
Theorem read_item_lossless (σ σ' : Σ) (item_id item_id' : Z)
    (q q' : option string) :
  (result (read_item item_id q) σ = result (read_item item_id' q') σ'
   ↔ item_id = item_id' ∧ q = q')
  ∧ result (read_item item_id None) σ
    ≠ result (read_item item_id (Some ""%string)) σ'.
Proof.
  assert (∀ (i i' : Z) (o o' : option string),
            result (read_item i o) σ = result (read_item i' o') σ' →
            i = i' ∧ o = o') as Hinj.
  { intros i i' o o' Heq.
    destruct (read_item_entries σ i o) as [Hid Hq].
    destruct (read_item_entries σ' i' o') as [Hid' Hq'].
    rewrite Heq in Hid, Hq. split.
    - rewrite Hid' in Hid. by injection Hid.
    - rewrite Hq' in Hq. injection Hq as Hq.
      symmetry. by apply of_optional_VStr_inj. }
  split; [split|].
  - apply Hinj.
  - by intros [-> ->].
  - intros Heq. apply Hinj in Heq as [_ Heq]. discriminate Heq.
Qed.

(** X2: the mapping of [update_item] tells the id, the name and the price
    and nothing else: two invocations return the same mapping exactly
    when they agree on [item_id], on [item.name] and on [item.price]. *)
Theorem update_item_lossless_but_is_offer (σ σ' : Σ) (item_id item_id' : Z)
    (item item' : Item) :
  result (update_item item_id item) σ = result (update_item item_id' item') σ'
  ↔ item_id = item_id' ∧ name item = name item' ∧ price item = price item'.
Proof.
  split.
  - intros Heq.
    destruct (update_item_entries σ item_id item) as (Hn & Hid & Hp).
    destruct (update_item_entries σ' item_id' item') as (Hn' & Hid' & Hp').
    rewrite Heq in Hn, Hid, Hp.
    rewrite Hn' in Hn. rewrite Hid' in Hid. rewrite Hp' in Hp.
    injection Hn as Hn. injection Hid as Hid. injection Hp as Hp.
    by repeat split.
  - intros (-> & Hn & Hp). rewrite !update_item_display. by rewrite Hn, Hp.
Qed.

End HandlerEchoes.
